(** * MIPI DSI type definitions: [components/hal/include/hal/mipi_dsi_types.h]

    The header declares two enumerations and two conditionally defined type
    aliases.  It is embedded in two layers that are proved to agree:

    - the header as it is written, a list of preprocessor lines and C
      declarations ([mipi_dsi_types_h]), read with the C rules it relies on:
      the evaluation of [#if], the numbering of enumerators and the size of a
      packed enumeration;
    - the two enumerations as inductive types with their value functions
      ([data_type_code], [pattern_value]), which is how a driver written
      against the header sees them. *)

From Stdlib Require Import ZArith List String Bool Lia Permutation.
Import ListNotations.

Local Open Scope string_scope.
Local Open Scope Z_scope.

(** ** C declarations, as far as a header of types needs them *)

Module CDecl.

(** A type as a typedef may name it. *)
Inductive ctype : Type :=
| Tint
| Tnamed (name : string).

(** An enumerator: its identifier and, when written, its [= constant]. *)
Definition enumerator : Type := string * option Z.

(** What a header can declare at file scope.  [Dfunction] and [Dobject] are
    the declarations that would give a header operations and run-time state. *)
Inductive decl : Type :=
| Denum (packed : bool) (enumerators : list enumerator) (name : string)
| Dtypedef (target : ctype) (name : string)
| Dfunction (result : ctype) (name : string) (params : list ctype)
| Dobject (type : ctype) (name : string).

(** A line of the header.  The two [extern "C"] brackets only exist for a C++
    compiler and declare nothing themselves. *)
Inductive item : Type :=
| Pragma_once
| Include (path : string)
| Extern_C_open
| Extern_C_close
| Decl (d : decl)
| If (macro : string) (then_ else_ : list decl).

(** The macros in force when the header is read: name and integer value. *)
Definition config : Type := list (string * Z).

Fixpoint macro_lookup (cfg : config) (m : string) : option Z :=
  match cfg with
  | [] => None
  | (n, v) :: rest => if String.eqb n m then Some v else macro_lookup rest m
  end.

(** [#if M]: an identifier that is not a macro counts as 0, and the group is
    taken when the value is not 0. *)
Definition if_taken (cfg : config) (m : string) : bool :=
  match macro_lookup cfg m with
  | Some v => negb (v =? 0)
  | None => false
  end.

Definition preprocess_item (cfg : config) (i : item) : list decl :=
  match i with
  | Pragma_once | Include _ | Extern_C_open | Extern_C_close => []
  | Decl d => [d]
  | If m t e => if if_taken cfg m then t else e
  end.

Definition preprocess (cfg : config) (h : list item) : list decl :=
  flat_map (preprocess_item cfg) h.

(** Enumerator values: the written constant when there is one, otherwise the
    previous value plus one, starting from 0. *)
Fixpoint enum_assign (next : Z) (es : list enumerator) : list (string * Z) :=
  match es with
  | [] => []
  | (n, init) :: rest =>
      let v := match init with Some c => c | None => next end in
      (n, v) :: enum_assign (v + 1) rest
  end.

Definition enum_values (es : list enumerator) : list (string * Z) :=
  enum_assign 0 es.

(** The enumeration declared under the typedef name [name]. *)
Fixpoint find_enum (ds : list decl) (name : string)
  : option (bool * list enumerator) :=
  match ds with
  | [] => None
  | Denum p es n :: rest =>
      if String.eqb n name then Some (p, es) else find_enum rest name
  | _ :: rest => find_enum rest name
  end.

Definition enum_members (ds : list decl) (name : string)
  : option (list (string * Z)) :=
  option_map (fun pe => enum_values (snd pe)) (find_enum ds name).

(** Every enumeration constant the declarations bring into scope. *)
Definition enum_constants (ds : list decl) : list (string * Z) :=
  flat_map (fun d => match d with
                     | Denum _ es _ => enum_values es
                     | _ => []
                     end) ds.

Fixpoint assoc (tbl : list (string * Z)) (n : string) : option Z :=
  match tbl with
  | [] => None
  | (k, v) :: rest => if String.eqb k n then Some v else assoc rest n
  end.


Definition declared_name (d : decl) : string :=
  match d with
  | Denum _ _ n | Dtypedef _ n | Dfunction _ n _ | Dobject _ n => n
  end.

Definition decl_enumerators (d : decl) : list enumerator :=
  match d with
  | Denum _ es _ => es
  | _ => []
  end.

Definition is_type_name (d : decl) : bool :=
  match d with
  | Denum _ _ _ | Dtypedef _ _ => true
  | Dfunction _ _ _ | Dobject _ _ => false
  end.

(** [declares_type ds n]: [n] is a type name in scope after [ds]. *)
Definition declares_type (ds : list decl) (n : string) : bool :=
  existsb (fun d => is_type_name d && String.eqb (declared_name d) n) ds.

Definition type_in_scope (scope : list decl) (t : ctype) : bool :=
  match t with
  | Tint => true
  | Tnamed n => declares_type scope n
  end.

(** A declaration is accepted when every type it names is already in scope. *)
Definition decl_ok (scope : list decl) (d : decl) : bool :=
  match d with
  | Denum _ _ _ => true
  | Dtypedef t _ => type_in_scope scope t
  | Dfunction r _ ps => type_in_scope scope r && forallb (type_in_scope scope) ps
  | Dobject t _ => type_in_scope scope t
  end.

Fixpoint decls_ok (scope : list decl) (ds : list decl) : bool :=
  match ds with
  | [] => true
  | d :: rest => decl_ok scope d && decls_ok (scope ++ [d]) rest
  end.

(** The operations and the objects a list of declarations provides. *)
Definition operations (ds : list decl) : list decl :=
  filter (fun d => match d with Dfunction _ _ _ => true | _ => false end) ds.

Definition objects (ds : list decl) : list decl :=
  filter (fun d => match d with Dobject _ _ => true | _ => false end) ds.

(** Size in bytes of an enumeration.  Unpacked, it is an [int] when its
    values fit one; [__attribute__((packed))] selects the smallest integer
    type that holds every value. *)
Definition fits_unsigned (bytes : Z) (v : Z) : bool :=
  (0 <=? v) && (v <? 2 ^ (8 * bytes)).

Definition fits_signed (bytes : Z) (v : Z) : bool :=
  (- 2 ^ (8 * bytes - 1) <=? v) && (v <? 2 ^ (8 * bytes - 1)).

Definition fits (bytes : Z) (vs : list Z) : bool :=
  forallb (fits_unsigned bytes) vs || forallb (fits_signed bytes) vs.

Definition enum_sizeof (packed : bool) (vs : list Z) : Z :=
  if packed then
    if fits 1 vs then 1 else if fits 2 vs then 2 else if fits 4 vs then 4 else 8
  else
    if fits 4 vs then 4 else 8.

End CDecl.

Import CDecl.

(** ** The header as written *)

(** [typedef enum { ... } __attribute__((packed)) mipi_dsi_data_type_t;] *)
Definition mipi_dsi_data_type_t_decl : decl :=
  Denum true
    [ ("MIPI_DSI_DT_VSYNC_START", Some 0x01);
      ("MIPI_DSI_DT_VSYNC_END", Some 0x11);
      ("MIPI_DSI_DT_HSYNC_START", Some 0x21);
      ("MIPI_DSI_DT_HSYNC_END", Some 0x31);
      ("MIPI_DSI_DT_EOT_PACKET", Some 0x08);
      ("MIPI_DSI_DT_COLOR_MODE_OFF", Some 0x02);
      ("MIPI_DSI_DT_COLOR_MODE_ON", Some 0x12);
      ("MIPI_DSI_DT_SHUTDOWN_PERIPHERAL", Some 0x22);
      ("MIPI_DSI_DT_TURN_ON_PERIPHERAL", Some 0x32);
      ("MIPI_DSI_DT_GENERIC_SHORT_WRITE_0", Some 0x03);
      ("MIPI_DSI_DT_GENERIC_SHORT_WRITE_1", Some 0x13);
      ("MIPI_DSI_DT_GENERIC_SHORT_WRITE_2", Some 0x23);
      ("MIPI_DSI_DT_GENERIC_READ_REQUEST_0", Some 0x04);
      ("MIPI_DSI_DT_GENERIC_READ_REQUEST_1", Some 0x14);
      ("MIPI_DSI_DT_GENERIC_READ_REQUEST_2", Some 0x24);
      ("MIPI_DSI_DT_DCS_SHORT_WRITE_0", Some 0x05);
      ("MIPI_DSI_DT_DCS_SHORT_WRITE_1", Some 0x15);
      ("MIPI_DSI_DT_DCS_READ_0", Some 0x06);
      ("MIPI_DSI_DT_SET_MAXIMUM_RETURN_PKT", Some 0x37);
      ("MIPI_DSI_DT_NULL_PACKET", Some 0x09);
      ("MIPI_DSI_DT_BLANKING_PACKET", Some 0x19);
      ("MIPI_DSI_DT_GENERIC_LONG_WRITE", Some 0x29);
      ("MIPI_DSI_DT_DCS_LONG_WRITE", Some 0x39);
      ("MIPI_DSI_DT_PACKED_PIXEL_STREAM_RGB_16", Some 0x0E);
      ("MIPI_DSI_DT_PACKED_PIXEL_STREAM_RGB_18", Some 0x1E);
      ("MIPI_DSI_DT_LOOSELY_PIXEL_STREAM_RGB_18", Some 0x2E);
      ("MIPI_DSI_DT_PACKED_PIXEL_STREAM_RGB_24", Some 0x3E) ]
    "mipi_dsi_data_type_t".

(** [typedef enum { ... } mipi_dsi_pattern_type_t;]: no enumerator has a
    written value. *)
Definition mipi_dsi_pattern_type_t_decl : decl :=
  Denum false
    [ ("MIPI_DSI_PATTERN_NONE", None);
      ("MIPI_DSI_PATTERN_BAR_VERTICAL", None);
      ("MIPI_DSI_PATTERN_BAR_HORIZONTAL", None);
      ("MIPI_DSI_PATTERN_BER_VERTICAL", None) ]
    "mipi_dsi_pattern_type_t".

Definition SOC_MIPI_DSI_SUPPORTED : string := "SOC_MIPI_DSI_SUPPORTED".

Definition mipi_dsi_types_h : list item :=
  [ Pragma_once;
    Include "stdint.h";
    Include "soc/clk_tree_defs.h";
    Include "esp_assert.h";
    Extern_C_open;
    Decl mipi_dsi_data_type_t_decl;
    Decl mipi_dsi_pattern_type_t_decl;
    If SOC_MIPI_DSI_SUPPORTED
      [ Dtypedef (Tnamed "soc_periph_mipi_dsi_phy_clk_src_t")
                 "mipi_dsi_phy_clock_source_t";
        Dtypedef (Tnamed "soc_periph_mipi_dsi_dpi_clk_src_t")
                 "mipi_dsi_dpi_clock_source_t" ]
      [ Dtypedef Tint "mipi_dsi_phy_clock_source_t";
        Dtypedef Tint "mipi_dsi_dpi_clock_source_t" ];
    Extern_C_close ].

(** What the header declares under a configuration. *)
Definition header_decls (cfg : config) : list decl :=
  preprocess cfg mipi_dsi_types_h.

(** The value of an enumeration constant of the header. *)
Definition enumerator_value (cfg : config) (n : string) : option Z :=
  assoc (enum_constants (header_decls cfg)) n.



(** [sizeof] of an enumeration of the header. *)
Definition sizeof_enum (cfg : config) (name : string) : option Z :=
  option_map (fun pe => enum_sizeof (fst pe) (map snd (enum_values (snd pe))))
             (find_enum (header_decls cfg) name).


(** ** The enumerations as types *)

Inductive mipi_dsi_data_type_t : Type :=
| MIPI_DSI_DT_VSYNC_START
| MIPI_DSI_DT_VSYNC_END
| MIPI_DSI_DT_HSYNC_START
| MIPI_DSI_DT_HSYNC_END
| MIPI_DSI_DT_EOT_PACKET
| MIPI_DSI_DT_COLOR_MODE_OFF
| MIPI_DSI_DT_COLOR_MODE_ON
| MIPI_DSI_DT_SHUTDOWN_PERIPHERAL
| MIPI_DSI_DT_TURN_ON_PERIPHERAL
| MIPI_DSI_DT_GENERIC_SHORT_WRITE_0
| MIPI_DSI_DT_GENERIC_SHORT_WRITE_1
| MIPI_DSI_DT_GENERIC_SHORT_WRITE_2
| MIPI_DSI_DT_GENERIC_READ_REQUEST_0
| MIPI_DSI_DT_GENERIC_READ_REQUEST_1
| MIPI_DSI_DT_GENERIC_READ_REQUEST_2
| MIPI_DSI_DT_DCS_SHORT_WRITE_0
| MIPI_DSI_DT_DCS_SHORT_WRITE_1
| MIPI_DSI_DT_DCS_READ_0
| MIPI_DSI_DT_SET_MAXIMUM_RETURN_PKT
| MIPI_DSI_DT_NULL_PACKET
| MIPI_DSI_DT_BLANKING_PACKET
| MIPI_DSI_DT_GENERIC_LONG_WRITE
| MIPI_DSI_DT_DCS_LONG_WRITE
| MIPI_DSI_DT_PACKED_PIXEL_STREAM_RGB_16
| MIPI_DSI_DT_PACKED_PIXEL_STREAM_RGB_18
| MIPI_DSI_DT_LOOSELY_PIXEL_STREAM_RGB_18
| MIPI_DSI_DT_PACKED_PIXEL_STREAM_RGB_24.

(** The integer an enumerator converts to. *)
Definition data_type_code (d : mipi_dsi_data_type_t) : Z :=
  match d with
  | MIPI_DSI_DT_VSYNC_START => 0x01
  | MIPI_DSI_DT_VSYNC_END => 0x11
  | MIPI_DSI_DT_HSYNC_START => 0x21
  | MIPI_DSI_DT_HSYNC_END => 0x31
  | MIPI_DSI_DT_EOT_PACKET => 0x08
  | MIPI_DSI_DT_COLOR_MODE_OFF => 0x02
  | MIPI_DSI_DT_COLOR_MODE_ON => 0x12
  | MIPI_DSI_DT_SHUTDOWN_PERIPHERAL => 0x22
  | MIPI_DSI_DT_TURN_ON_PERIPHERAL => 0x32
  | MIPI_DSI_DT_GENERIC_SHORT_WRITE_0 => 0x03
  | MIPI_DSI_DT_GENERIC_SHORT_WRITE_1 => 0x13
  | MIPI_DSI_DT_GENERIC_SHORT_WRITE_2 => 0x23
  | MIPI_DSI_DT_GENERIC_READ_REQUEST_0 => 0x04
  | MIPI_DSI_DT_GENERIC_READ_REQUEST_1 => 0x14
  | MIPI_DSI_DT_GENERIC_READ_REQUEST_2 => 0x24
  | MIPI_DSI_DT_DCS_SHORT_WRITE_0 => 0x05
  | MIPI_DSI_DT_DCS_SHORT_WRITE_1 => 0x15
  | MIPI_DSI_DT_DCS_READ_0 => 0x06
  | MIPI_DSI_DT_SET_MAXIMUM_RETURN_PKT => 0x37
  | MIPI_DSI_DT_NULL_PACKET => 0x09
  | MIPI_DSI_DT_BLANKING_PACKET => 0x19
  | MIPI_DSI_DT_GENERIC_LONG_WRITE => 0x29
  | MIPI_DSI_DT_DCS_LONG_WRITE => 0x39
  | MIPI_DSI_DT_PACKED_PIXEL_STREAM_RGB_16 => 0x0E
  | MIPI_DSI_DT_PACKED_PIXEL_STREAM_RGB_18 => 0x1E
  | MIPI_DSI_DT_LOOSELY_PIXEL_STREAM_RGB_18 => 0x2E
  | MIPI_DSI_DT_PACKED_PIXEL_STREAM_RGB_24 => 0x3E
  end.

(** The identifier of an enumerator in the header. *)
Definition data_type_name (d : mipi_dsi_data_type_t) : string :=
  match d with
  | MIPI_DSI_DT_VSYNC_START => "MIPI_DSI_DT_VSYNC_START"
  | MIPI_DSI_DT_VSYNC_END => "MIPI_DSI_DT_VSYNC_END"
  | MIPI_DSI_DT_HSYNC_START => "MIPI_DSI_DT_HSYNC_START"
  | MIPI_DSI_DT_HSYNC_END => "MIPI_DSI_DT_HSYNC_END"
  | MIPI_DSI_DT_EOT_PACKET => "MIPI_DSI_DT_EOT_PACKET"
  | MIPI_DSI_DT_COLOR_MODE_OFF => "MIPI_DSI_DT_COLOR_MODE_OFF"
  | MIPI_DSI_DT_COLOR_MODE_ON => "MIPI_DSI_DT_COLOR_MODE_ON"
  | MIPI_DSI_DT_SHUTDOWN_PERIPHERAL => "MIPI_DSI_DT_SHUTDOWN_PERIPHERAL"
  | MIPI_DSI_DT_TURN_ON_PERIPHERAL => "MIPI_DSI_DT_TURN_ON_PERIPHERAL"
  | MIPI_DSI_DT_GENERIC_SHORT_WRITE_0 => "MIPI_DSI_DT_GENERIC_SHORT_WRITE_0"
  | MIPI_DSI_DT_GENERIC_SHORT_WRITE_1 => "MIPI_DSI_DT_GENERIC_SHORT_WRITE_1"
  | MIPI_DSI_DT_GENERIC_SHORT_WRITE_2 => "MIPI_DSI_DT_GENERIC_SHORT_WRITE_2"
  | MIPI_DSI_DT_GENERIC_READ_REQUEST_0 => "MIPI_DSI_DT_GENERIC_READ_REQUEST_0"
  | MIPI_DSI_DT_GENERIC_READ_REQUEST_1 => "MIPI_DSI_DT_GENERIC_READ_REQUEST_1"
  | MIPI_DSI_DT_GENERIC_READ_REQUEST_2 => "MIPI_DSI_DT_GENERIC_READ_REQUEST_2"
  | MIPI_DSI_DT_DCS_SHORT_WRITE_0 => "MIPI_DSI_DT_DCS_SHORT_WRITE_0"
  | MIPI_DSI_DT_DCS_SHORT_WRITE_1 => "MIPI_DSI_DT_DCS_SHORT_WRITE_1"
  | MIPI_DSI_DT_DCS_READ_0 => "MIPI_DSI_DT_DCS_READ_0"
  | MIPI_DSI_DT_SET_MAXIMUM_RETURN_PKT => "MIPI_DSI_DT_SET_MAXIMUM_RETURN_PKT"
  | MIPI_DSI_DT_NULL_PACKET => "MIPI_DSI_DT_NULL_PACKET"
  | MIPI_DSI_DT_BLANKING_PACKET => "MIPI_DSI_DT_BLANKING_PACKET"
  | MIPI_DSI_DT_GENERIC_LONG_WRITE => "MIPI_DSI_DT_GENERIC_LONG_WRITE"
  | MIPI_DSI_DT_DCS_LONG_WRITE => "MIPI_DSI_DT_DCS_LONG_WRITE"
  | MIPI_DSI_DT_PACKED_PIXEL_STREAM_RGB_16 =>
      "MIPI_DSI_DT_PACKED_PIXEL_STREAM_RGB_16"
  | MIPI_DSI_DT_PACKED_PIXEL_STREAM_RGB_18 =>
      "MIPI_DSI_DT_PACKED_PIXEL_STREAM_RGB_18"
  | MIPI_DSI_DT_LOOSELY_PIXEL_STREAM_RGB_18 =>
      "MIPI_DSI_DT_LOOSELY_PIXEL_STREAM_RGB_18"
  | MIPI_DSI_DT_PACKED_PIXEL_STREAM_RGB_24 =>
      "MIPI_DSI_DT_PACKED_PIXEL_STREAM_RGB_24"
  end.

(** The enumerators in the order of their declaration. *)
Definition data_type_members : list mipi_dsi_data_type_t :=
  [ MIPI_DSI_DT_VSYNC_START; MIPI_DSI_DT_VSYNC_END;
    MIPI_DSI_DT_HSYNC_START; MIPI_DSI_DT_HSYNC_END;
    MIPI_DSI_DT_EOT_PACKET;
    MIPI_DSI_DT_COLOR_MODE_OFF; MIPI_DSI_DT_COLOR_MODE_ON;
    MIPI_DSI_DT_SHUTDOWN_PERIPHERAL; MIPI_DSI_DT_TURN_ON_PERIPHERAL;
    MIPI_DSI_DT_GENERIC_SHORT_WRITE_0; MIPI_DSI_DT_GENERIC_SHORT_WRITE_1;
    MIPI_DSI_DT_GENERIC_SHORT_WRITE_2;
    MIPI_DSI_DT_GENERIC_READ_REQUEST_0; MIPI_DSI_DT_GENERIC_READ_REQUEST_1;
    MIPI_DSI_DT_GENERIC_READ_REQUEST_2;
    MIPI_DSI_DT_DCS_SHORT_WRITE_0; MIPI_DSI_DT_DCS_SHORT_WRITE_1;
    MIPI_DSI_DT_DCS_READ_0;
    MIPI_DSI_DT_SET_MAXIMUM_RETURN_PKT;
    MIPI_DSI_DT_NULL_PACKET; MIPI_DSI_DT_BLANKING_PACKET;
    MIPI_DSI_DT_GENERIC_LONG_WRITE; MIPI_DSI_DT_DCS_LONG_WRITE;
    MIPI_DSI_DT_PACKED_PIXEL_STREAM_RGB_16;
    MIPI_DSI_DT_PACKED_PIXEL_STREAM_RGB_18;
    MIPI_DSI_DT_LOOSELY_PIXEL_STREAM_RGB_18;
    MIPI_DSI_DT_PACKED_PIXEL_STREAM_RGB_24 ].

Inductive mipi_dsi_pattern_type_t : Type :=
| MIPI_DSI_PATTERN_NONE
| MIPI_DSI_PATTERN_BAR_VERTICAL
| MIPI_DSI_PATTERN_BAR_HORIZONTAL
| MIPI_DSI_PATTERN_BER_VERTICAL.

Definition pattern_name (p : mipi_dsi_pattern_type_t) : string :=
  match p with
  | MIPI_DSI_PATTERN_NONE => "MIPI_DSI_PATTERN_NONE"
  | MIPI_DSI_PATTERN_BAR_VERTICAL => "MIPI_DSI_PATTERN_BAR_VERTICAL"
  | MIPI_DSI_PATTERN_BAR_HORIZONTAL => "MIPI_DSI_PATTERN_BAR_HORIZONTAL"
  | MIPI_DSI_PATTERN_BER_VERTICAL => "MIPI_DSI_PATTERN_BER_VERTICAL"
  end.

Definition pattern_members : list mipi_dsi_pattern_type_t :=
  [ MIPI_DSI_PATTERN_NONE; MIPI_DSI_PATTERN_BAR_VERTICAL;
    MIPI_DSI_PATTERN_BAR_HORIZONTAL; MIPI_DSI_PATTERN_BER_VERTICAL ].

(** The header writes no value for a pattern: each one takes the value the
    numbering rule gives its identifier in [mipi_dsi_pattern_type_t_decl]. *)
Definition pattern_value (p : mipi_dsi_pattern_type_t) : option Z :=
  assoc (enum_values (decl_enumerators mipi_dsi_pattern_type_t_decl))
        (pattern_name p).

(** The patterns an object holding the integer [z] compares equal to. *)
Definition patterns_of_value (z : Z) : list mipi_dsi_pattern_type_t :=
  filter (fun p => match pattern_value p with
                   | Some v => v =? z
                   | None => false
                   end) pattern_members.

(** The value of an object of integer or enumeration type after zero
    initialisation. *)
Definition zero_initialized : Z := 0.

(** Both enumerators and their values, as a driver sees the data types. *)
Definition data_type_table : list (string * Z) :=
  map (fun d => (data_type_name d, data_type_code d)) data_type_members.


(** The data types an object holding the integer [z] compares equal to. *)
Definition data_types_of_code (z : Z) : list mipi_dsi_data_type_t :=
  filter (fun d => data_type_code d =? z) data_type_members.

(** The number of parameter bytes of a short packet, as the header documents
    it for the nine enumerators that say so ("with no parameter", "with 1
    byte parameter", "with 2 byte parameter"). *)
Definition parameter_bytes (d : mipi_dsi_data_type_t) : option Z :=
  match d with
  | MIPI_DSI_DT_GENERIC_SHORT_WRITE_0 => Some 0
  | MIPI_DSI_DT_GENERIC_SHORT_WRITE_1 => Some 1
  | MIPI_DSI_DT_GENERIC_SHORT_WRITE_2 => Some 2
  | MIPI_DSI_DT_GENERIC_READ_REQUEST_0 => Some 0
  | MIPI_DSI_DT_GENERIC_READ_REQUEST_1 => Some 1
  | MIPI_DSI_DT_GENERIC_READ_REQUEST_2 => Some 2
  | MIPI_DSI_DT_DCS_SHORT_WRITE_0 => Some 0
  | MIPI_DSI_DT_DCS_SHORT_WRITE_1 => Some 1
  | MIPI_DSI_DT_DCS_READ_0 => Some 0
  | _ => None
  end.








(** * Properties *)

(** ** The shape of the preprocessed header *)

Definition clock_source_typedefs (cfg : config) : list decl :=
  if if_taken cfg SOC_MIPI_DSI_SUPPORTED
  then [ Dtypedef (Tnamed "soc_periph_mipi_dsi_phy_clk_src_t")
                  "mipi_dsi_phy_clock_source_t";
         Dtypedef (Tnamed "soc_periph_mipi_dsi_dpi_clk_src_t")
                  "mipi_dsi_dpi_clock_source_t" ]
  else [ Dtypedef Tint "mipi_dsi_phy_clock_source_t";
         Dtypedef Tint "mipi_dsi_dpi_clock_source_t" ].

Lemma header_decls_shape (cfg : config) :
  header_decls cfg =
  mipi_dsi_data_type_t_decl :: mipi_dsi_pattern_type_t_decl
    :: clock_source_typedefs cfg.
Proof.
  unfold header_decls, preprocess, mipi_dsi_types_h, clock_source_typedefs.
  cbn [flat_map preprocess_item app].
  now rewrite app_nil_r.
Qed.

(** Only the aliases depend on the configuration. *)
Ltac by_configuration cfg :=
  rewrite ?header_decls_shape; unfold clock_source_typedefs;
  destruct (if_taken cfg SOC_MIPI_DSI_SUPPORTED).

Lemma enum_constants_fixed (cfg : config) :
  enum_constants (header_decls cfg) =
  (enum_values (decl_enumerators mipi_dsi_data_type_t_decl)
     ++ enum_values (decl_enumerators mipi_dsi_pattern_type_t_decl))%list.
Proof. by_configuration cfg; reflexivity. Qed.

Lemma data_type_members_fixed (cfg : config) :
  enum_members (header_decls cfg) "mipi_dsi_data_type_t" = Some data_type_table.
Proof. by_configuration cfg; reflexivity. Qed.

Lemma enumerator_value_data_type (cfg : config) (d : mipi_dsi_data_type_t) :
  enumerator_value cfg (data_type_name d) = Some (data_type_code d).
Proof.
  unfold enumerator_value. rewrite enum_constants_fixed.
  destruct d; reflexivity.
Qed.

Lemma data_type_members_complete (d : mipi_dsi_data_type_t) :
  In d data_type_members.
Proof. destruct d; cbn; tauto. Qed.

Lemma pattern_members_complete (p : mipi_dsi_pattern_type_t) :
  In p pattern_members.
Proof. destruct p; cbn; tauto. Qed.

Lemma data_type_code_inj (a b : mipi_dsi_data_type_t) :
  data_type_code a = data_type_code b -> a = b.
Proof. destruct a, b; intros E; first [reflexivity | discriminate E]. Qed.

Lemma if_taken_spec (cfg : config) (m : string) :
  if_taken cfg m = true <-> exists v, macro_lookup cfg m = Some v /\ v <> 0.
Proof.
  unfold if_taken. destruct (macro_lookup cfg m) as [v|].
  - rewrite negb_true_iff, Z.eqb_neq. split.
    + intros H. exists v. now split.
    + intros [w [E H]]. now injection E as ->.
  - split; [discriminate | intros [w [E _]]; discriminate].
Qed.

(** ** Scoping of declarations *)

Lemma declares_type_app (ds ds' : list decl) (n : string) :
  declares_type (ds ++ ds')%list n = declares_type ds n || declares_type ds' n.
Proof. unfold declares_type. apply existsb_app. Qed.


(** ** Packet data-type codes *)

(** C1.  Each packet data-type constant has the numeric value written for it
    in the header, whatever the configuration: V-Sync-Start is 0x01, DCS Long
    Write is 0x39, Packed Pixel Stream RGB888 is 0x3E, and the whole
    enumeration is the table of the 27 names with their codes. *)
Theorem data_type_constants_have_specified_values (cfg : config) :
  enumerator_value cfg "MIPI_DSI_DT_VSYNC_START" = Some 0x01 /\
  enumerator_value cfg "MIPI_DSI_DT_DCS_LONG_WRITE" = Some 0x39 /\
  enumerator_value cfg "MIPI_DSI_DT_PACKED_PIXEL_STREAM_RGB_24" = Some 0x3E /\
  enum_members (header_decls cfg) "mipi_dsi_data_type_t"
  = Some
      [ ("MIPI_DSI_DT_VSYNC_START", 1); ("MIPI_DSI_DT_VSYNC_END", 17);
        ("MIPI_DSI_DT_HSYNC_START", 33); ("MIPI_DSI_DT_HSYNC_END", 49);
        ("MIPI_DSI_DT_EOT_PACKET", 8);
        ("MIPI_DSI_DT_COLOR_MODE_OFF", 2); ("MIPI_DSI_DT_COLOR_MODE_ON", 18);
        ("MIPI_DSI_DT_SHUTDOWN_PERIPHERAL", 34);
        ("MIPI_DSI_DT_TURN_ON_PERIPHERAL", 50);
        ("MIPI_DSI_DT_GENERIC_SHORT_WRITE_0", 3);
        ("MIPI_DSI_DT_GENERIC_SHORT_WRITE_1", 19);
        ("MIPI_DSI_DT_GENERIC_SHORT_WRITE_2", 35);
        ("MIPI_DSI_DT_GENERIC_READ_REQUEST_0", 4);
        ("MIPI_DSI_DT_GENERIC_READ_REQUEST_1", 20);
        ("MIPI_DSI_DT_GENERIC_READ_REQUEST_2", 36);
        ("MIPI_DSI_DT_DCS_SHORT_WRITE_0", 5);
        ("MIPI_DSI_DT_DCS_SHORT_WRITE_1", 21);
        ("MIPI_DSI_DT_DCS_READ_0", 6);
        ("MIPI_DSI_DT_SET_MAXIMUM_RETURN_PKT", 55);
        ("MIPI_DSI_DT_NULL_PACKET", 9); ("MIPI_DSI_DT_BLANKING_PACKET", 25);
        ("MIPI_DSI_DT_GENERIC_LONG_WRITE", 41);
        ("MIPI_DSI_DT_DCS_LONG_WRITE", 57);
        ("MIPI_DSI_DT_PACKED_PIXEL_STREAM_RGB_16", 14);
        ("MIPI_DSI_DT_PACKED_PIXEL_STREAM_RGB_18", 30);
        ("MIPI_DSI_DT_LOOSELY_PIXEL_STREAM_RGB_18", 46);
        ("MIPI_DSI_DT_PACKED_PIXEL_STREAM_RGB_24", 62) ] /\
  (forall d, enumerator_value cfg (data_type_name d) = Some (data_type_code d)).
Proof.
  split; [|split; [|split; [|split]]].
  - exact (enumerator_value_data_type cfg MIPI_DSI_DT_VSYNC_START).
  - exact (enumerator_value_data_type cfg MIPI_DSI_DT_DCS_LONG_WRITE).
  - exact (enumerator_value_data_type cfg
             MIPI_DSI_DT_PACKED_PIXEL_STREAM_RGB_24).
  - rewrite data_type_members_fixed. reflexivity.
  - apply enumerator_value_data_type.
Qed.

(** C3.  Every packet data-type code is an 8-bit constant: each member's
    value lies between 0 and 0xFF, in the header's own table as well, and the
    packed enumeration occupies one byte. *)
Theorem data_type_codes_are_8_bit (cfg : config) :
  (forall d, 0 <= data_type_code d <= 0xFF) /\
  (exists tbl,
      enum_members (header_decls cfg) "mipi_dsi_data_type_t" = Some tbl /\
      Forall (fun nv => 0 <= snd nv <= 0xFF) tbl) /\
  sizeof_enum cfg "mipi_dsi_data_type_t" = Some 1.
Proof.
  assert (B : forall d, 0 <= data_type_code d <= 0xFF)
    by (intros d; destruct d; cbn; lia).
  split; [exact B|]. split.
  - exists data_type_table. split; [apply data_type_members_fixed|].
    unfold data_type_table. apply Forall_map, Forall_forall.
    intros d _. apply B.
  - unfold sizeof_enum. by_configuration cfg; reflexivity.
Qed.

(** C5.  The 27 members of the data-type enumeration are pairwise distinct:
    the list of members is complete and has 27 entries, no code occurs twice
    in it, and two different enumerators never have the same code. *)
Theorem data_type_codes_pairwise_distinct :
  List.length data_type_members = 27%nat /\
  (forall d, In d data_type_members) /\
  NoDup (map data_type_code data_type_members) /\
  (forall a b, a <> b -> data_type_code a <> data_type_code b).
Proof.
  split; [reflexivity|]. split; [apply data_type_members_complete|]. split.
  - cbn. repeat (constructor; [cbn; intuition discriminate|]). constructor.
  - intros a b N E. apply N, data_type_code_inj, E.
Qed.

Lemma data_type_codes_pairwise_distinct_witness :
  MIPI_DSI_DT_GENERIC_LONG_WRITE <> MIPI_DSI_DT_DCS_LONG_WRITE /\
  data_type_code MIPI_DSI_DT_GENERIC_LONG_WRITE
  <> data_type_code MIPI_DSI_DT_DCS_LONG_WRITE.
Proof.
  assert (N : MIPI_DSI_DT_GENERIC_LONG_WRITE <> MIPI_DSI_DT_DCS_LONG_WRITE)
    by discriminate.
  split; [exact N|].
  exact (proj2 (proj2 (proj2 data_type_codes_pairwise_distinct)) _ _ N).
Defined.

(** C6.  Every member's code is at most 0x3E, hence below 0x40: it fits the
    6-bit data-type field of a packet header and leaves bits 6 and 7 of the
    byte clear. *)
Theorem data_type_codes_fit_6_bits (d : mipi_dsi_data_type_t) :
  data_type_code d <= 0x3E /\
  data_type_code d < 0x40 /\
  Z.land (data_type_code d) 0xC0 = 0 /\
  Z.testbit (data_type_code d) 6 = false /\
  Z.testbit (data_type_code d) 7 = false.
Proof. destruct d; cbn; repeat split; lia. Qed.

(** ** Test patterns *)

(** C2.  The test-pattern enumeration has exactly four members, in the order
    NONE, BAR_VERTICAL, BAR_HORIZONTAL, BER_VERTICAL, numbered 0, 1, 2, 3. *)
Theorem pattern_enum_has_four_members_in_order (cfg : config) :
  enum_members (header_decls cfg) "mipi_dsi_pattern_type_t"
  = Some [ ("MIPI_DSI_PATTERN_NONE", 0);
           ("MIPI_DSI_PATTERN_BAR_VERTICAL", 1);
           ("MIPI_DSI_PATTERN_BAR_HORIZONTAL", 2);
           ("MIPI_DSI_PATTERN_BER_VERTICAL", 3) ] /\
  map pattern_value pattern_members = [Some 0; Some 1; Some 2; Some 3] /\
  List.length pattern_members = 4%nat /\
  (forall p, In p pattern_members).
Proof.
  split; [by_configuration cfg; reflexivity|].
  split; [reflexivity|]. split; [reflexivity|].
  apply pattern_members_complete.
Qed.

(** C7.  MIPI_DSI_PATTERN_NONE has the value 0, so a zero-initialised
    pattern value selects no test pattern, and no other one. *)
Theorem pattern_none_is_zero (cfg : config) :
  enumerator_value cfg "MIPI_DSI_PATTERN_NONE" = Some 0 /\
  pattern_value MIPI_DSI_PATTERN_NONE = Some zero_initialized /\
  patterns_of_value zero_initialized = [MIPI_DSI_PATTERN_NONE].
Proof.
  split.
  - unfold enumerator_value. rewrite enum_constants_fixed. reflexivity.
  - split; reflexivity.
Qed.

(** ** Clock-source aliases *)













(** ** What the header does not declare *)

(** C8.  The packet data-type codes are compile-time constants without a
    run-time lifecycle: every member has its code under every configuration,
    the same under any two, and the header declares no operation and no
    object through which a value could change. *)
Theorem data_type_codes_are_fixed_constants
        (cfg cfg' : config) (d : mipi_dsi_data_type_t) :
  enumerator_value cfg (data_type_name d) = Some (data_type_code d) /\
  enumerator_value cfg' (data_type_name d)
  = enumerator_value cfg (data_type_name d) /\
  enum_constants (header_decls cfg') = enum_constants (header_decls cfg) /\
  operations (header_decls cfg) = [] /\
  objects (header_decls cfg) = [].
Proof.
  split; [apply enumerator_value_data_type|].
  split; [now rewrite !enumerator_value_data_type|].
  split; [now rewrite !enum_constants_fixed|].
  split; by_configuration cfg; reflexivity.
Qed.

(** C9.  The header defines no fallible operation: whatever the
    configuration it declares four things, the two enumerations and the two
    aliases, all of them types, and no operation at all. *)
Theorem header_declares_no_operations (cfg : config) :
  operations (header_decls cfg) = [] /\
  forallb is_type_name (header_decls cfg) = true /\
  map declared_name (header_decls cfg)
  = [ "mipi_dsi_data_type_t"; "mipi_dsi_pattern_type_t";
      "mipi_dsi_phy_clock_source_t"; "mipi_dsi_dpi_clock_source_t" ].
Proof. repeat split; by_configuration cfg; reflexivity. Qed.

(** * Further properties of the header *)

(** ** Codes and the integers they are stored as *)

(** X1.  Reading a stored data-type code back finds the enumerator it came
    from and no other.  Every code is positive, so a zero-initialised
    [mipi_dsi_data_type_t] is none of the declared packet types. *)
Theorem data_type_code_round_trip (d : mipi_dsi_data_type_t) :
  data_types_of_code (data_type_code d) = [d] /\
  0 < data_type_code d /\
  data_types_of_code zero_initialized = [].
Proof. destruct d; repeat split. Qed.

(** X2.  An integer stands for a test pattern exactly when it is 0, 1, 2 or
    3, and then for one pattern only; any other integer, negative ones
    included, stands for none. *)
Theorem patterns_of_value_spec (z : Z) :
  patterns_of_value z =
  if z =? 0 then [MIPI_DSI_PATTERN_NONE]
  else if z =? 1 then [MIPI_DSI_PATTERN_BAR_VERTICAL]
  else if z =? 2 then [MIPI_DSI_PATTERN_BAR_HORIZONTAL]
  else if z =? 3 then [MIPI_DSI_PATTERN_BER_VERTICAL]
  else [].
Proof.
  unfold patterns_of_value, pattern_members. cbn [filter].
  change (pattern_value MIPI_DSI_PATTERN_NONE) with (Some 0).
  change (pattern_value MIPI_DSI_PATTERN_BAR_VERTICAL) with (Some 1).
  change (pattern_value MIPI_DSI_PATTERN_BAR_HORIZONTAL) with (Some 2).
  change (pattern_value MIPI_DSI_PATTERN_BER_VERTICAL) with (Some 3).
  cbv iota beta.
  rewrite (Z.eqb_sym 0 z), (Z.eqb_sym 1 z), (Z.eqb_sym 2 z), (Z.eqb_sym 3 z).
  destruct (Z.eqb_spec z 0) as [->|]; [reflexivity|].
  destruct (Z.eqb_spec z 1) as [->|]; [reflexivity|].
  destruct (Z.eqb_spec z 2) as [->|]; [reflexivity|].
  destruct (Z.eqb_spec z 3) as [->|]; reflexivity.
Qed.

(** X3.  For the nine short packets whose parameter count the header
    documents, that count is what bits 4 and 5 of the code hold, and the low
    four bits name the packet family (3 generic write, 4 generic read, 5 DCS
    write, 6 DCS read). *)
Theorem parameter_bytes_in_high_nibble
        (d : mipi_dsi_data_type_t) (n : Z)
        (H : parameter_bytes d = Some n) :
  Z.shiftr (data_type_code d) 4 = n /\
  data_type_code d = Z.land (data_type_code d) 0x0F + 16 * n /\
  3 <= Z.land (data_type_code d) 0x0F <= 6.
Proof.
  destruct d; cbn in H; try discriminate H;
    injection H as <-; cbn; repeat split; lia.
Qed.

Lemma parameter_bytes_in_high_nibble_witness :
  Z.shiftr (data_type_code MIPI_DSI_DT_GENERIC_READ_REQUEST_2) 4 = 2 /\
  data_type_code MIPI_DSI_DT_GENERIC_READ_REQUEST_2
  = Z.land (data_type_code MIPI_DSI_DT_GENERIC_READ_REQUEST_2) 0x0F + 16 * 2 /\
  3 <= Z.land (data_type_code MIPI_DSI_DT_GENERIC_READ_REQUEST_2) 0x0F <= 6.
Proof.
  apply (parameter_bytes_in_high_nibble MIPI_DSI_DT_GENERIC_READ_REQUEST_2 2).
  reflexivity.
Defined.

(** ** Scope *)

(** X5.  The types the header names are all in scope, after whatever was
    declared before it, exactly when the macro is off or both chip-specific
    clock-source types were declared: the fallback branch needs nothing from
    the clock tree, the other branch is refused when either type is
    missing. *)
Theorem header_types_in_scope_iff (cfg : config) (scope : list decl) :
  decls_ok scope (header_decls cfg)
  = negb (if_taken cfg SOC_MIPI_DSI_SUPPORTED)
    || (declares_type scope "soc_periph_mipi_dsi_phy_clk_src_t"
        && declares_type scope "soc_periph_mipi_dsi_dpi_clk_src_t").
Proof.
  rewrite header_decls_shape. unfold clock_source_typedefs.
  destruct (if_taken cfg SOC_MIPI_DSI_SUPPORTED); [|reflexivity].
  cbn [decls_ok decl_ok type_in_scope negb orb
       mipi_dsi_data_type_t_decl mipi_dsi_pattern_type_t_decl].
  rewrite !declares_type_app.
  change (declares_type [Denum true _ "mipi_dsi_data_type_t"]
                        "soc_periph_mipi_dsi_phy_clk_src_t") with false.
  change (declares_type [Denum false _ "mipi_dsi_pattern_type_t"]
                        "soc_periph_mipi_dsi_phy_clk_src_t") with false.
  change (declares_type [Denum true _ "mipi_dsi_data_type_t"]
                        "soc_periph_mipi_dsi_dpi_clk_src_t") with false.
  change (declares_type [Denum false _ "mipi_dsi_pattern_type_t"]
                        "soc_periph_mipi_dsi_dpi_clk_src_t") with false.
  change (declares_type [Dtypedef _ "mipi_dsi_phy_clock_source_t"]
                        "soc_periph_mipi_dsi_dpi_clk_src_t") with false.
  rewrite !orb_false_r, andb_true_r. reflexivity.
Qed.

(** ** Names *)

(** X6.  Under every configuration no identifier of the header is declared
    twice: its 31 enumeration constants and its four type names, which share
    one name space, are 35 pairwise different identifiers. *)
Theorem header_names_are_unique (cfg : config) :
  NoDup (map fst (enum_constants (header_decls cfg))) /\
  List.length (enum_constants (header_decls cfg)) = 31%nat /\
  NoDup (map declared_name (header_decls cfg)) /\
  NoDup (map declared_name (header_decls cfg)
         ++ map fst (enum_constants (header_decls cfg)))%list /\
  List.length (map declared_name (header_decls cfg)
               ++ map fst (enum_constants (header_decls cfg)))%list = 35%nat.
Proof.
  assert (D : forall l : list string, nodup string_dec l = l -> NoDup l)
    by (intros l <-; apply NoDup_nodup).
  rewrite enum_constants_fixed. split; [|split; [|split; [|split]]].
  - apply D. vm_compute. reflexivity.
  - reflexivity.
  - by_configuration cfg; apply D; vm_compute; reflexivity.
  - by_configuration cfg; apply D; vm_compute; reflexivity.
  - by_configuration cfg; reflexivity.
Qed.

(** ** Sizes *)

(** X7.  Only the data-type enumeration is packed.  The pattern enumeration
    is an ordinary one and has the size of an [int], 4 bytes; the attribute
    is what brings the data types to one byte, without it they too would
    take 4. *)
Theorem pattern_enum_is_int_sized (cfg : config) :
  sizeof_enum cfg "mipi_dsi_pattern_type_t" = Some 4 /\
  enum_sizeof false (map data_type_code data_type_members) = 4 /\
  enum_sizeof true (map data_type_code data_type_members) = 1.
Proof.
  unfold sizeof_enum. by_configuration cfg; repeat split.
Qed.
